(** * zeturn: result constructors and error-field extraction helpers

    A shallow embedding of [src/utils/helpers.ts] (the [Zeturn] class) and
    of the result module ([Ok], [Err]), over a model of the JavaScript
    values these functions receive at run time.

    - [Js]      the run-time substrate: values, truthiness, completions,
                property reads, optional chaining, [||] and object spread;
    - [Zeturn]  the class: its two static sentinels, the constructor, the
                static extraction operations and (in [Zeturn.Instance])
                the instance ones;
    - [Ok], [Err]  the two constructors of the result module. *)

From Stdlib Require Import Floats.PrimFloat Numbers.Cyclic.Int63.Uint63.
From Stdlib Require Import DecimalString.
From stdpp Require Import gmap strings.

Set Warnings "-register-all".
Local Open Scope string_scope.

(* ===================================================================== *)
(** ** The JavaScript substrate                                           *)
(* ===================================================================== *)

Module Js.

(** An abrupt completion: the [TypeError] that the engine raises when a
    property of [undefined] or [null] is read, or [Thrown], whatever a
    getter or a proxy trap of the input throws. *)
Inductive error : Type :=
  | TypeError
  | Thrown.

(** Outcome of evaluating an expression or calling a function: a value,
    or an abrupt completion by [throw]. *)
Inductive completion (A : Type) : Type :=
  | Normal (a : A)
  | Throw (e : error).
Arguments Normal {A} a.
Arguments Throw {A} e.

#[global] Instance completion_ret : MRet completion := @Normal.
#[global] Instance completion_bind : MBind completion :=
  λ A B f c, match c with Normal a => f a | Throw e => Throw e end.

(** How one key of an object that is not a plain record behaves.
    [yields] is what a read of the key ([[Get]]) produces: [Some a] when
    it returns [a] (a data property or a getter that returns, own or
    inherited), [None] when the getter or the proxy trap throws.
    [own_enumerable] tells whether object spread visits the key: spread
    copies own enumerable properties only, not the inherited and the
    non-enumerable ones (a getter on the prototype of a class, [message]
    and [stack] of an [Error]). *)
Record property (A : Type) : Type := Property {
  own_enumerable : bool;
  yields : option A
}.
Arguments Property {A} own_enumerable yields.
Arguments own_enumerable {A} p.
Arguments yields {A} p.

(** The seven primitive types and objects; numbers are IEEE doubles, and
    a string is given by its code units, one per character (so code
    units below 256).

    [Obj props] is a plain record: an object all of whose properties are
    own, enumerable data properties, as an object literal, a spread or
    [JSON.parse] creates.  [Exotic slots] is any other object (a class
    instance, an [Error], an array, a function, a proxy), given key by
    key.  Members of the built-in prototypes ([toString], ...) are not
    part of the model: the program reads only the keys [code], [message],
    [show], [notFoundCode] and [notFoundMsg], which no built-in prototype
    defines. *)
Inductive value : Type :=
  | Undefined
  | Null
  | Bool (b : bool)
  | Num (n : float)
  | BigInt (z : Z)
  | Str (s : string)
  | Symbol (description : string)
  | Obj (props : gmap string value)
  | Exotic (slots : gmap string (property value)).

(** [ToBoolean]: [undefined], [null], [false], [+0], [-0], [NaN], [0n]
    and the empty string are falsy, everything else is truthy. *)
Definition ToBoolean (v : value) : bool :=
  match v with
  | Undefined | Null => false
  | Bool b => b
  | Num n => negb (PrimFloat.eqb n 0%float) && PrimFloat.eqb n n
  | BigInt z => negb (Z.eqb z 0)
  | Str s => negb (String.eqb s "")
  | Symbol _ | Obj _ | Exotic _ => true
  end.

Definition is_object (v : value) : bool :=
  match v with Obj _ | Exotic _ => true | _ => false end.

Definition is_exotic (v : value) : bool :=
  match v with Exotic _ => true | _ => false end.

Definition is_nullish (v : value) : bool :=
  match v with Undefined | Null => true | _ => false end.

(** The property key of array index [i]: its decimal numeral. *)
Definition index_key (i : nat) : string :=
  NilZero.string_of_uint (Nat.to_uint i).

(** Own enumerable properties of a string primitive: one single-character
    string per index, starting at index [i]. *)
Fixpoint index_props (i : nat) (s : string) : gmap string value :=
  match s with
  | EmptyString => ∅
  | String c s' =>
      <[index_key i := Str (String c EmptyString)]> (index_props (S i) s')
  end.

Definition string_length (s : string) : value :=
  Num (PrimFloat.of_uint63 (Uint63.of_Z (Z.of_nat (String.length s)))).

(** A read of one key of an exotic object. *)
Definition get_slot (slots : gmap string (property value)) (k : string)
  : completion value :=
  match slots !! k with
  | None => Normal Undefined
  | Some p =>
      match yields p with
      | Some x => Normal x
      | None => Throw Thrown
      end
  end.

(** [v.k] (member access).  Reading a property of [undefined] or [null]
    throws a [TypeError]; a missing property reads as [undefined]; a
    getter or a proxy trap may throw. *)
Definition GetV (v : value) (k : string) : completion value :=
  match v with
  | Undefined | Null => Throw TypeError
  | Obj props => Normal (default Undefined (props !! k))
  | Exotic slots => get_slot slots k
  | Str s =>
      if String.eqb k "length" then Normal (string_length s)
      else Normal (default Undefined (index_props 0 s !! k))
  | Bool _ | Num _ | BigInt _ | Symbol _ => Normal Undefined
  end.

(** [v?.k] (optional chaining): short-circuits to [undefined] when the
    base is nullish, and is a plain member access otherwise. *)
Definition OptionalChain (v : value) (k : string) : completion value :=
  if is_nullish v then Normal Undefined else GetV v k.

(** [a || b], with [b] already evaluated (every right operand in the
    program is a constant). *)
Definition LogicalOr (a b : value) : value :=
  if ToBoolean a then a else b.

(** What spread copies from one key: the value read, for an own
    enumerable key; nothing otherwise. *)
Definition copied (p : property value) : option value :=
  if own_enumerable p then yields p else None.

(** Spread reads every own enumerable key, so it throws when one of these
    reads does. *)
Definition spread_throws (slots : gmap string (property value)) : bool :=
  existsb (λ kp, own_enumerable kp.2 && negb (bool_decide (is_Some (yields kp.2))))
          (map_to_list slots).

(** [{ ...v }]: the own enumerable properties copied by object spread.
    Spreading [undefined], [null], a boolean, a number, a bigint or a
    symbol copies nothing; spreading a string copies its characters;
    spreading an object copies its own enumerable properties and drops
    the others. *)
Definition CopyDataProperties (v : value) : completion (gmap string value) :=
  match v with
  | Obj props => Normal props
  | Exotic slots =>
      if spread_throws slots then Throw Thrown
      else Normal (omap copied slots)
  | Str s => Normal (index_props 0 s)
  | Undefined | Null | Bool _ | Num _ | BigInt _ | Symbol _ => Normal ∅
  end.

(** An optional parameter: an omitted argument binds [undefined]. *)
Definition param (arg : option value) : value := default Undefined arg.

End Js.

Import Js.

(* ===================================================================== *)
(** ** [class Zeturn]                                                     *)
(* ===================================================================== *)

Module Zeturn.

Definition NOT_FOUND_CODE : string := "zeturn_unknown".
Definition NOT_FOUND_MSG : string := "zeturn: unknown".

(** The instance fields.  They are declared [string], but hold whatever
    run-time value the constructor stored. *)
Record t : Type := mk {
  notFoundCode : value;
  notFoundMsg : value
}.

(** [constructor(opt)]:
    [this.notFoundCode = opt.notFoundCode || Zeturn.NOT_FOUND_CODE;
     this.notFoundMsg = opt.notFoundMsg || Zeturn.NOT_FOUND_MSG;] *)
Definition constructor (opt : value) : completion t :=
  c ← GetV opt "notFoundCode";
  let this_notFoundCode := LogicalOr c (Str NOT_FOUND_CODE) in
  m ← GetV opt "notFoundMsg";
  let this_notFoundMsg := LogicalOr m (Str NOT_FOUND_MSG) in
  mret (mk this_notFoundCode this_notFoundMsg).

(** [static codeFromError = (error) => { ... }] *)
Definition codeFromError (error : value) : completion value :=
  errCode ← OptionalChain error "code";
  if negb (ToBoolean errCode) then mret (Str NOT_FOUND_CODE)
  else mret errCode.

(** [static msgFromError = (error) => { ... }] *)
Definition msgFromError (error : value) : completion value :=
  errMsg ← OptionalChain error "message";
  if negb (ToBoolean errMsg) then mret (Str NOT_FOUND_MSG)
  else mret errMsg.

(** The instance operations, with the receiver [this] explicit. *)
Module Instance.

Definition codeFromError (this : t) (error : value) : completion value :=
  errCode ← OptionalChain error "code";
  if negb (ToBoolean errCode) then mret (notFoundCode this)
  else mret errCode.

Definition msgFromError (this : t) (error : value) : completion value :=
  errMsg ← OptionalChain error "message";
  if negb (ToBoolean errMsg) then mret (notFoundMsg this)
  else mret errMsg.

End Instance.

End Zeturn.

(* ===================================================================== *)
(** ** The result module                                                  *)
(* ===================================================================== *)

Definition NO_ERROR_CODE : string := "no_error_code".

(** [{ ok: true, data }] and [{ ok: false, err }], the two shapes of
    [Result<T, E>]. *)
Definition success (data : value) : value :=
  Obj (<["data" := data]> (<["ok" := Bool true]> ∅)).

Definition failure (err : value) : value :=
  Obj (<["err" := err]> (<["ok" := Bool false]> ∅)).

(** [function Ok<T>(data?: T)] *)
Definition Ok (arg : option value) : completion value :=
  let data := param arg in
  mret (success data).

(** [function Err(_err: ArgErr)].  Each [{ ...err, k: x }] is a spread
    followed by the definition of [k] on the fresh plain object. *)
Definition Err (_err : value) : completion value :=
  let err := _err in
  code ← OptionalChain err "code";
  err ← (if negb (ToBoolean code)
         then props ← CopyDataProperties err;
              mret (Obj (<["code" := Str NO_ERROR_CODE]> props))
         else mret err);
  show ← OptionalChain err "show";
  err ← (if negb (ToBoolean show)
         then props ← CopyDataProperties err;
              mret (Obj (<["show" := Bool false]> props))
         else mret err);
  mret (failure err).

(** *** Vocabulary of the specification *)

(** "The field [k] is present and truthy": the value is an object, and a
    read of [k] returns a truthy value. *)
Definition truthy_field (k : string) (v : value) : bool :=
  match v with
  | Obj props =>
      match props !! k with
      | Some x => ToBoolean x
      | None => false
      end
  | Exotic slots =>
      match slots !! k with
      | Some p =>
          match yields p with
          | Some x => ToBoolean x
          | None => false
          end
      | None => false
      end
  | _ => false
  end.

(** "Reading [k] throws": the value is an object whose getter or proxy
    trap for [k] throws.  This is never the case of a plain record or of
    a primitive. *)
Definition throwing_field (k : string) (v : value) : bool :=
  match v with
  | Exotic slots =>
      match slots !! k with
      | Some p => negb (bool_decide (is_Some (yields p)))
      | None => false
      end
  | _ => false
  end.

(** "The override [k] is unset": the configuration object has no such
    property, or has it as [undefined]. *)
Definition unset (k : string) (opt : gmap string value) : Prop :=
  opt !! k = None ∨ opt !! k = Some Undefined.

Definition is_digit (c : Ascii.ascii) : bool :=
  (48 <=? Ascii.nat_of_ascii c)%nat && (Ascii.nat_of_ascii c <=? 57)%nat.

(** A key that is neither an array index nor [length]: it starts with a
    character that is not a decimal digit, and is not [length]. *)
Definition named_key (k : string) : bool :=
  match k with
  | EmptyString => false
  | String c _ => negb (is_digit c) && negb (String.eqb k "length")
  end.

(** The single parametrized extraction that the four operations repeat:
    read [k] through optional chaining, fall back to [dflt] when falsy. *)
Definition extract (k : string) (dflt : value) (error : value)
  : completion value :=
  x ← OptionalChain error k;
  if negb (ToBoolean x) then mret dflt else mret x.

(** [r.k] for a result that is known to be a plain object. *)
Definition field (k : string) (r : value) : option value :=
  match r with
  | Obj props => props !! k
  | _ => None
  end.

(* ===================================================================== *)
(** ** Property reads                                                     *)
(* ===================================================================== *)

Section reads.

Implicit Types (v x : value) (k : string) (props : gmap string value).
Implicit Types (slots : gmap string (property value)).

Lemma string_of_uint_head d c k :
  is_digit c = false → NilZero.string_of_uint d ≠ String c k.
Proof.
  intros Hc Heq.
  destruct d; simpl in Heq; injection Heq as <- _; discriminate Hc.
Qed.

Lemma index_props_named s : ∀ i c k,
  is_digit c = false → index_props i s !! String c k = None.
Proof.
  induction s as [|a s IH]; intros i c k Hc; simpl.
  - apply lookup_empty.
  - rewrite lookup_insert_ne; [by apply IH|].
    by apply string_of_uint_head.
Qed.

Lemma named_key_inv k :
  named_key k = true →
  ∃ c k', k = String c k' ∧ is_digit c = false ∧ String.eqb k "length" = false.
Proof.
  destruct k as [|c k']; [done|]. unfold named_key.
  intros [Hd Hl]%andb_prop. exists c, k'.
  by rewrite <-(negb_involutive (is_digit c)), <-(negb_involutive (_ =? _)%string), Hd, Hl.
Qed.

Lemma OptionalChain_Obj props k :
  OptionalChain (Obj props) k = Normal (default Undefined (props !! k)).
Proof. reflexivity. Qed.

Lemma OptionalChain_Exotic slots k :
  OptionalChain (Exotic slots) k = get_slot slots k.
Proof. reflexivity. Qed.

(** Optional chaining completes normally unless the read itself throws. *)
Lemma OptionalChain_normal v k :
  throwing_field k v = false → ∃ x, OptionalChain v k = Normal x.
Proof.
  destruct v; unfold OptionalChain; simpl; eauto.
  - destruct (_ =? _)%string; eauto.
  - unfold get_slot. destruct (slots !! k) as [[o [x|]]|]; simpl; eauto.
    discriminate.
Qed.

(** When the read throws, so does optional chaining. *)
Lemma OptionalChain_throws v k :
  throwing_field k v = true → OptionalChain v k = Throw Thrown.
Proof.
  destruct v; try discriminate. rewrite OptionalChain_Exotic.
  unfold get_slot. simpl.
  destruct (slots !! k) as [[o [x|]]|]; simpl; done.
Qed.

(** A named key of a value that is not an object reads as [undefined]. *)
Lemma OptionalChain_non_object v k :
  is_object v = false → named_key k = true →
  OptionalChain v k = Normal Undefined.
Proof.
  intros Hv (c & k' & -> & Hc & Hl)%named_key_inv.
  destruct v; try done.
  unfold OptionalChain, GetV, is_nullish.
  by rewrite Hl, index_props_named.
Qed.

(** Without a truthy field [k], a read that does not throw yields a falsy
    value. *)
Lemma OptionalChain_falsy v k :
  truthy_field k v = false → throwing_field k v = false →
  named_key k = true →
  ∃ x, OptionalChain v k = Normal x ∧ ToBoolean x = false.
Proof.
  intros Hf Ht Hk. destruct (is_object v) eqn:Hv.
  - destruct v; try done.
    + rewrite OptionalChain_Obj. simpl in Hf.
      destruct (props !! k); eauto.
    + rewrite OptionalChain_Exotic. unfold get_slot. simpl in Hf, Ht.
      destruct (slots !! k) as [[o [x|]]|]; simpl in *; eauto.
      discriminate Ht.
  - rewrite OptionalChain_non_object by done. eauto.
Qed.

Lemma OptionalChain_truthy props k x :
  props !! k = Some x → OptionalChain (Obj props) k = Normal x.
Proof. intros H. by rewrite OptionalChain_Obj, H. Qed.

Lemma OptionalChain_slot slots k p x :
  slots !! k = Some p → yields p = Some x →
  OptionalChain (Exotic slots) k = Normal x.
Proof.
  intros Hl Hy. rewrite OptionalChain_Exotic. unfold get_slot.
  by rewrite Hl, Hy.
Qed.

Lemma throwing_field_plain k v : is_exotic v = false → throwing_field k v = false.
Proof. by destruct v. Qed.

End reads.

(* ===================================================================== *)
(** ** The extraction operations                                          *)
(* ===================================================================== *)

Section extraction.

Implicit Types (error dflt x : value) (k : string) (this : Zeturn.t).
Implicit Types (props opt : gmap string value).
Implicit Types (slots : gmap string (property value)).

(** Each operation is an instance of [extract]. *)
Lemma static_code_extract error :
  Zeturn.codeFromError error = extract "code" (Str Zeturn.NOT_FOUND_CODE) error.
Proof. reflexivity. Qed.

Lemma static_msg_extract error :
  Zeturn.msgFromError error = extract "message" (Str Zeturn.NOT_FOUND_MSG) error.
Proof. reflexivity. Qed.

Lemma instance_code_extract this error :
  Zeturn.Instance.codeFromError this error
  = extract "code" (Zeturn.notFoundCode this) error.
Proof. reflexivity. Qed.

Lemma instance_msg_extract this error :
  Zeturn.Instance.msgFromError this error
  = extract "message" (Zeturn.notFoundMsg this) error.
Proof. reflexivity. Qed.

Lemma extract_normal k dflt error :
  throwing_field k error = false → ∃ r, extract k dflt error = Normal r.
Proof.
  intros Ht. unfold extract.
  destruct (OptionalChain_normal error k Ht) as [x ->]. simpl.
  destruct (ToBoolean x); simpl; eauto.
Qed.

Lemma extract_throws k dflt error :
  throwing_field k error = true → extract k dflt error = Throw Thrown.
Proof. intros Ht. unfold extract. by rewrite OptionalChain_throws. Qed.

Lemma extract_default k dflt error :
  named_key k = true →
  truthy_field k error = false → throwing_field k error = false →
  extract k dflt error = Normal dflt.
Proof.
  intros Hk Hf Ht. unfold extract.
  destruct (OptionalChain_falsy error k Hf Ht Hk) as (x & -> & Hx). simpl.
  by rewrite Hx.
Qed.

Lemma extract_present k dflt props x :
  props !! k = Some x → ToBoolean x = true →
  extract k dflt (Obj props) = Normal x.
Proof.
  intros Hl Hx. unfold extract. rewrite (OptionalChain_truthy _ _ _ Hl). simpl.
  by rewrite Hx.
Qed.

Lemma extract_slot k dflt slots p x :
  slots !! k = Some p → yields p = Some x → ToBoolean x = true →
  extract k dflt (Exotic slots) = Normal x.
Proof.
  intros Hl Hy Hx. unfold extract.
  rewrite (OptionalChain_slot _ _ _ _ Hl Hy). simpl. by rewrite Hx.
Qed.

Lemma truthy_field_non_object k error :
  is_object error = false → truthy_field k error = false.
Proof. by destruct error. Qed.

Lemma throwing_field_non_object k error :
  is_object error = false → throwing_field k error = false.
Proof. by destruct error. Qed.

Lemma truthy_field_empty k : truthy_field k (Obj ∅) = false.
Proof. unfold truthy_field. by rewrite lookup_empty. Qed.

Lemma constructor_Obj opt :
  Zeturn.constructor (Obj opt)
  = Normal (Zeturn.mk
      (LogicalOr (default Undefined (opt !! "notFoundCode"))
                 (Str Zeturn.NOT_FOUND_CODE))
      (LogicalOr (default Undefined (opt !! "notFoundMsg"))
                 (Str Zeturn.NOT_FOUND_MSG))).
Proof. reflexivity. Qed.

Ltac to_extract :=
  rewrite ?static_code_extract, ?static_msg_extract,
          ?instance_code_extract, ?instance_msg_extract.

(** C3.  In static mode, [Zeturn.codeFromError] returns the value of the
    input's [code] field as it is, whatever its type, when that field is
    present and truthy, and the sentinel "zeturn_unknown" when the field
    is absent or falsy (empty string, zero, [null], ...) or the input is
    not an object at all; in particular for [{}], [null] and
    [undefined].  The field may be a data property of a plain record, or
    any property, own or inherited, of another object. *)
Theorem static_codeFromError_code_or_sentinel :
  (∀ props c, props !! "code" = Some c → ToBoolean c = true →
     Zeturn.codeFromError (Obj props) = Normal c)
  ∧ (∀ error, truthy_field "code" error = false →
     throwing_field "code" error = false →
     Zeturn.codeFromError error = Normal (Str "zeturn_unknown"))
  ∧ Zeturn.codeFromError (Obj {[ "code" := Str "X" ]}) = Normal (Str "X")
  ∧ Zeturn.codeFromError (Obj {[ "code" := Num 404 ]}) = Normal (Num 404)
  ∧ Zeturn.codeFromError (Obj ∅) = Normal (Str "zeturn_unknown")
  ∧ Zeturn.codeFromError Null = Normal (Str "zeturn_unknown")
  ∧ Zeturn.codeFromError Undefined = Normal (Str "zeturn_unknown")
  ∧ Zeturn.codeFromError (Obj {[ "code" := Str "" ]})
      = Normal (Str "zeturn_unknown")
  ∧ Zeturn.codeFromError (Obj {[ "code" := Num 0 ]})
      = Normal (Str "zeturn_unknown")
  ∧ Zeturn.codeFromError (Obj {[ "code" := Null ]})
      = Normal (Str "zeturn_unknown")
  ∧ (∀ slots p c, slots !! "code" = Some p → yields p = Some c →
       ToBoolean c = true →
       Zeturn.codeFromError (Exotic slots) = Normal c).
Proof.
  split_and!; try reflexivity.
  - intros props c Hl Hc. to_extract. by apply extract_present.
  - intros error Hf Ht. to_extract. by apply extract_default.
  - intros slots p c Hl Hy Hc. to_extract. by apply (extract_slot _ _ _ p).
Qed.

Lemma static_codeFromError_code_or_sentinel_witness :
  (({[ "code" := Bool true; "message" := Str "m" ]} : gmap string value)
     !! "code" = Some (Bool true)
   ∧ ToBoolean (Bool true) = true
   ∧ Zeturn.codeFromError (Obj {[ "code" := Bool true; "message" := Str "m" ]})
     = Normal (Bool true))
  ∧ (truthy_field "code" (Str "oops") = false
     ∧ throwing_field "code" (Str "oops") = false
     ∧ Zeturn.codeFromError (Str "oops") = Normal (Str "zeturn_unknown")).
Proof.
  split; [split; [reflexivity | split; [reflexivity |] ]
         | split; [reflexivity | split; [reflexivity |] ] ].
  - apply (proj1 static_codeFromError_code_or_sentinel
             {[ "code" := Bool true; "message" := Str "m" ]} (Bool true));
      reflexivity.
  - apply (proj1 (proj2 static_codeFromError_code_or_sentinel) (Str "oops"));
      reflexivity.
Defined.

(** C4.  In static mode, [Zeturn.msgFromError] reads the [message] field,
    not [msg]: it returns that field's value when present and truthy
    ([{ message: "hi" }] gives "hi") and the sentinel "zeturn: unknown"
    when [message] is absent or falsy or the input is not an object, also
    when the input has a [msg] field.  The field may be a data property
    of a plain record, or any property, own or inherited, of another
    object (the [message] of an [Error]). *)
Theorem static_msgFromError_message_or_sentinel :
  (∀ props m, props !! "message" = Some m → ToBoolean m = true →
     Zeturn.msgFromError (Obj props) = Normal m)
  ∧ (∀ error, truthy_field "message" error = false →
     throwing_field "message" error = false →
     Zeturn.msgFromError error = Normal (Str "zeturn: unknown"))
  ∧ Zeturn.msgFromError (Obj {[ "message" := Str "hi" ]}) = Normal (Str "hi")
  ∧ Zeturn.msgFromError (Obj {[ "msg" := Str "hi" ]})
      = Normal (Str "zeturn: unknown")
  ∧ Zeturn.msgFromError (Obj ∅) = Normal (Str "zeturn: unknown")
  ∧ Zeturn.msgFromError Null = Normal (Str "zeturn: unknown")
  ∧ Zeturn.msgFromError Undefined = Normal (Str "zeturn: unknown")
  ∧ Zeturn.msgFromError (Num 42) = Normal (Str "zeturn: unknown")
  ∧ Zeturn.msgFromError (Str "boom") = Normal (Str "zeturn: unknown")
  ∧ (∀ slots p m, slots !! "message" = Some p → yields p = Some m →
       ToBoolean m = true →
       Zeturn.msgFromError (Exotic slots) = Normal m).
Proof.
  split_and!; try reflexivity.
  - intros props m Hl Hm. to_extract. by apply extract_present.
  - intros error Hf Ht. to_extract. by apply extract_default.
  - intros slots p m Hl Hy Hm. to_extract. by apply (extract_slot _ _ _ p).
Qed.

Lemma static_msgFromError_message_or_sentinel_witness :
  (({[ "message" := Str "disk full"; "msg" := Str "other" ]}
      : gmap string value) !! "message" = Some (Str "disk full")
   ∧ ToBoolean (Str "disk full") = true
   ∧ Zeturn.msgFromError
       (Obj {[ "message" := Str "disk full"; "msg" := Str "other" ]})
     = Normal (Str "disk full"))
  ∧ (truthy_field "message" (Obj {[ "message" := Str "" ]}) = false
     ∧ throwing_field "message" (Obj {[ "message" := Str "" ]}) = false
     ∧ Zeturn.msgFromError (Obj {[ "message" := Str "" ]})
       = Normal (Str "zeturn: unknown")).
Proof.
  split; [split; [reflexivity | split; [reflexivity |] ]
         | split; [reflexivity | split; [reflexivity |] ] ].
  - apply (proj1 static_msgFromError_message_or_sentinel
             {[ "message" := Str "disk full"; "msg" := Str "other" ]}
             (Str "disk full")); reflexivity.
  - apply (proj1 (proj2 static_msgFromError_message_or_sentinel)
             (Obj {[ "message" := Str "" ]})); reflexivity.
Defined.

(** C5, as the code has it.  An extraction operation throws exactly when
    the read of its field throws (a getter or a proxy trap of the input),
    and then in static and in instance mode alike; on every other input
    it completes normally.  An input that is not an object ([null],
    [undefined], any primitive) never makes a read throw: it is treated
    like the empty object, that is like a missing field, and resolves to
    the applicable default. *)
Theorem extraction_throws_only_when_read_throws this error :
  (throwing_field "code" error = false →
     ∃ c c',
       Zeturn.codeFromError error = Normal c
       ∧ Zeturn.Instance.codeFromError this error = Normal c')
  ∧ (throwing_field "message" error = false →
     ∃ m m',
       Zeturn.msgFromError error = Normal m
       ∧ Zeturn.Instance.msgFromError this error = Normal m')
  ∧ (is_object error = false →
     Zeturn.codeFromError error = Zeturn.codeFromError (Obj ∅)
     ∧ Zeturn.codeFromError error = Normal (Str Zeturn.NOT_FOUND_CODE)
     ∧ Zeturn.msgFromError error = Zeturn.msgFromError (Obj ∅)
     ∧ Zeturn.msgFromError error = Normal (Str Zeturn.NOT_FOUND_MSG)
     ∧ Zeturn.Instance.codeFromError this error
       = Zeturn.Instance.codeFromError this (Obj ∅)
     ∧ Zeturn.Instance.codeFromError this error
       = Normal (Zeturn.notFoundCode this)
     ∧ Zeturn.Instance.msgFromError this error
       = Zeturn.Instance.msgFromError this (Obj ∅)
     ∧ Zeturn.Instance.msgFromError this error
       = Normal (Zeturn.notFoundMsg this))
  ∧ (throwing_field "code" error = true →
     Zeturn.codeFromError error = Throw Thrown
     ∧ Zeturn.Instance.codeFromError this error = Throw Thrown)
  ∧ (throwing_field "message" error = true →
     Zeturn.msgFromError error = Throw Thrown
     ∧ Zeturn.Instance.msgFromError this error = Throw Thrown).
Proof.
  split_and!.
  - intros Ht.
    destruct (extract_normal "code" (Str Zeturn.NOT_FOUND_CODE) error Ht) as [c Hc].
    destruct (extract_normal "code" (Zeturn.notFoundCode this) error Ht) as [c' Hc'].
    by exists c, c'.
  - intros Ht.
    destruct (extract_normal "message" (Str Zeturn.NOT_FOUND_MSG) error Ht) as [m Hm].
    destruct (extract_normal "message" (Zeturn.notFoundMsg this) error Ht) as [m' Hm'].
    by exists m, m'.
  - intros Hno. to_extract.
    rewrite !(extract_default _ _ (Obj ∅)) by (done || apply truthy_field_empty).
    rewrite !(extract_default _ _ error)
      by (done || by apply truthy_field_non_object
               || by apply throwing_field_non_object).
    done.
  - intros Ht. to_extract. by rewrite !extract_throws.
  - intros Ht. to_extract. by rewrite !extract_throws.
Qed.

Lemma extraction_throws_only_when_read_throws_witness :
  is_object (Num 3) = false
  ∧ Zeturn.Instance.codeFromError (Zeturn.mk (Str "c") (Str "m")) (Num 3)
    = Normal (Str "c")
  ∧ Zeturn.Instance.msgFromError (Zeturn.mk (Str "c") (Str "m")) (Num 3)
    = Normal (Str "m").
Proof.
  split; [reflexivity|].
  pose proof (proj1 (proj2 (proj2 (extraction_throws_only_when_read_throws
                       (Zeturn.mk (Str "c") (Str "m")) (Num 3)))) eq_refl)
    as (_ & _ & _ & _ & _ & Hc & _ & Hm).
  exact (conj Hc Hm).
Defined.

(** C5, as stated, fails: on an object whose [code] and [message] are
    getters that throw, each of the four operations throws. *)
Lemma extraction_throws_on_throwing_getter :
  Zeturn.codeFromError
    (Exotic {[ "code" := Property false None;
               "message" := Property false None ]}) = Throw Thrown
  ∧ Zeturn.msgFromError
      (Exotic {[ "code" := Property false None;
                 "message" := Property false None ]}) = Throw Thrown
  ∧ Zeturn.Instance.codeFromError (Zeturn.mk (Str "c") (Str "m"))
      (Exotic {[ "code" := Property false None;
                 "message" := Property false None ]}) = Throw Thrown
  ∧ Zeturn.Instance.msgFromError (Zeturn.mk (Str "c") (Str "m"))
      (Exotic {[ "code" := Property false None;
                 "message" := Property false None ]}) = Throw Thrown
  ∧ ¬ (∀ this error, ∃ c m c' m',
         Zeturn.codeFromError error = Normal c
         ∧ Zeturn.msgFromError error = Normal m
         ∧ Zeturn.Instance.codeFromError this error = Normal c'
         ∧ Zeturn.Instance.msgFromError this error = Normal m').
Proof.
  split_and!; try (vm_compute; reflexivity).
  intros H.
  destruct (H (Zeturn.mk (Str "c") (Str "m"))
              (Exotic {[ "code" := Property false None;
                         "message" := Property false None ]}))
    as (c & _ & _ & _ & Hc & _).
  vm_compute in Hc. discriminate Hc.
Qed.

(** C6.  The instance built from [{ notFoundCode: "custom_code" }] returns
    "custom_code" from [codeFromError] on every input without a truthy
    [code] (so on [{}]), and still returns the global sentinel
    "zeturn: unknown" from [msgFromError] on every input without a truthy
    [message], no message override having been given. *)
Theorem custom_code_only_instance :
  ∃ z,
    Zeturn.constructor (Obj {[ "notFoundCode" := Str "custom_code" ]}) = Normal z
    ∧ (∀ error, truthy_field "code" error = false →
         throwing_field "code" error = false →
         Zeturn.Instance.codeFromError z error = Normal (Str "custom_code"))
    ∧ (∀ error, truthy_field "message" error = false →
         throwing_field "message" error = false →
         Zeturn.Instance.msgFromError z error = Normal (Str "zeturn: unknown"))
    ∧ Zeturn.Instance.codeFromError z (Obj ∅) = Normal (Str "custom_code")
    ∧ Zeturn.Instance.msgFromError z (Obj ∅) = Normal (Str "zeturn: unknown").
Proof.
  eexists. split; [reflexivity|]. split_and!; try reflexivity.
  - intros error Hf Ht. to_extract. by apply extract_default.
  - intros error Hf Ht. to_extract. by apply extract_default.
Qed.

Lemma custom_code_only_instance_witness :
  truthy_field "code" (Obj {[ "code" := Str "" ]}) = false
  ∧ throwing_field "code" (Obj {[ "code" := Str "" ]}) = false
  ∧ truthy_field "message" Null = false
  ∧ throwing_field "message" Null = false
  ∧ ∃ z,
      Zeturn.constructor (Obj {[ "notFoundCode" := Str "custom_code" ]}) = Normal z
      ∧ Zeturn.Instance.codeFromError z (Obj {[ "code" := Str "" ]})
        = Normal (Str "custom_code")
      ∧ Zeturn.Instance.msgFromError z Null = Normal (Str "zeturn: unknown").
Proof.
  split; [reflexivity|]. split; [reflexivity|].
  split; [reflexivity|]. split; [reflexivity|].
  destruct custom_code_only_instance as (z & Hz & Hc & Hm & _).
  exists z. split; [exact Hz|]. split.
  - apply Hc; reflexivity.
  - apply Hm; reflexivity.
Defined.

(** C8.  An instance constructed with both overrides unset agrees with
    static mode on every input: its [codeFromError] returns what
    [Zeturn.codeFromError] returns, and its [msgFromError] what
    [Zeturn.msgFromError] returns. *)
Theorem unset_overrides_agree_with_static opt :
  unset "notFoundCode" opt → unset "notFoundMsg" opt →
  ∃ z,
    Zeturn.constructor (Obj opt) = Normal z
    ∧ ∀ error,
        Zeturn.Instance.codeFromError z error = Zeturn.codeFromError error
        ∧ Zeturn.Instance.msgFromError z error = Zeturn.msgFromError error.
Proof.
  intros Hc Hm. eexists. split; [apply constructor_Obj|].
  intros error. to_extract. simpl Zeturn.notFoundCode. simpl Zeturn.notFoundMsg.
  by destruct Hc as [-> | ->], Hm as [-> | ->].
Qed.

Lemma unset_overrides_agree_with_static_witness :
  unset "notFoundCode" ∅ ∧ unset "notFoundMsg" ∅
  ∧ ∃ z,
      Zeturn.constructor (Obj ∅) = Normal z
      ∧ ∀ error,
          Zeturn.Instance.codeFromError z error = Zeturn.codeFromError error
          ∧ Zeturn.Instance.msgFromError z error = Zeturn.msgFromError error.
Proof.
  split; [left; reflexivity|]. split; [left; reflexivity|].
  apply (unset_overrides_agree_with_static ∅); left; reflexivity.
Defined.

(** C10.  A configuration field that is supplied but falsy, such as the
    empty string of [new Zeturn({ notFoundCode: "" })], is replaced by the
    global sentinel: the instance stores "zeturn_unknown" (respectively
    "zeturn: unknown") and the corresponding operation agrees with static
    mode on every input. *)
Theorem falsy_override_replaced_by_sentinel opt :
  ∃ z,
    Zeturn.constructor (Obj opt) = Normal z
    ∧ (∀ c, opt !! "notFoundCode" = Some c → ToBoolean c = false →
         Zeturn.notFoundCode z = Str "zeturn_unknown"
         ∧ ∀ error,
             Zeturn.Instance.codeFromError z error = Zeturn.codeFromError error)
    ∧ (∀ m, opt !! "notFoundMsg" = Some m → ToBoolean m = false →
         Zeturn.notFoundMsg z = Str "zeturn: unknown"
         ∧ ∀ error,
             Zeturn.Instance.msgFromError z error = Zeturn.msgFromError error).
Proof.
  eexists. split; [apply constructor_Obj|]. split.
  - intros c Hl Hc. simpl Zeturn.notFoundCode. rewrite Hl. simpl default.
    unfold LogicalOr. rewrite Hc. split; [reflexivity|].
    intros error. to_extract. reflexivity.
  - intros m Hl Hm. simpl Zeturn.notFoundMsg. rewrite Hl. simpl default.
    unfold LogicalOr. rewrite Hm. split; [reflexivity|].
    intros error. to_extract. reflexivity.
Qed.

Lemma falsy_override_replaced_by_sentinel_witness :
  ({[ "notFoundCode" := Str "" ]} : gmap string value) !! "notFoundCode"
  = Some (Str "")
  ∧ ToBoolean (Str "") = false
  ∧ ∃ z,
      Zeturn.constructor (Obj {[ "notFoundCode" := Str "" ]}) = Normal z
      ∧ Zeturn.notFoundCode z = Str "zeturn_unknown"
      ∧ Zeturn.Instance.codeFromError z (Obj ∅) = Zeturn.codeFromError (Obj ∅).
Proof.
  split; [reflexivity|]. split; [reflexivity|].
  destruct (falsy_override_replaced_by_sentinel {[ "notFoundCode" := Str "" ]})
    as (z & Hz & Hc & _).
  exists z. split; [exact Hz|].
  destruct (Hc (Str "") eq_refl eq_refl) as [Hs Ha].
  split; [exact Hs | apply Ha].
Defined.

End extraction.

(* ===================================================================== *)
(** ** The result constructors                                            *)
(* ===================================================================== *)

Section constructors.

Implicit Types (v x err : value) (k : string) (props e : gmap string value).
Implicit Types (slots : gmap string (property value)).

Lemma truthy_field_Obj k props :
  truthy_field k (Obj props) = ToBoolean (default Undefined (props !! k)).
Proof. unfold truthy_field. by destruct (props !! k). Qed.

Lemma truthy_present props k :
  ToBoolean (default Undefined (props !! k)) = true → is_Some (props !! k).
Proof. destruct (props !! k); [eauto | discriminate]. Qed.

(** The second normalisation step of [Err], from a plain record. *)
Lemma Err_show_step props :
  (show ← OptionalChain (Obj props) "show";
   err ← (if negb (ToBoolean show)
          then props' ← CopyDataProperties (Obj props);
               mret (Obj (<["show" := Bool false]> props'))
          else mret (Obj props));
   mret (failure err))
  = Normal (failure (Obj
      (if ToBoolean (default Undefined (props !! "show")) then props
       else <["show" := Bool false]> props))).
Proof.
  rewrite OptionalChain_Obj. simpl.
  by destruct (ToBoolean (default Undefined (props !! "show"))).
Qed.

(** [Err] on a plain record, one case per normalisation step. *)
Lemma Err_Obj props :
  Err (Obj props)
  = Normal (failure (Obj
      (let e :=
         if ToBoolean (default Undefined (props !! "code")) then props
         else <["code" := Str NO_ERROR_CODE]> props in
       if ToBoolean (default Undefined (e !! "show")) then e
       else <["show" := Bool false]> e))).
Proof.
  unfold Err. rewrite OptionalChain_Obj. simpl mbind at 1.
  destruct (ToBoolean (default Undefined (props !! "code")));
    simpl negb; cbv iota; apply Err_show_step.
Qed.

(** [Err] after a falsy read of [code]: the spread result takes over. *)
Lemma Err_falsy_code v x props :
  OptionalChain v "code" = Normal x → ToBoolean x = false →
  CopyDataProperties v = Normal props →
  props !! "code" = None ∨ (∃ y, props !! "code" = Some y ∧ ToBoolean y = false) →
  Err v = Err (Obj props).
Proof.
  intros Hr Hx Hs Hc. rewrite Err_Obj. unfold Err at 1.
  rewrite Hr. simpl mbind at 1. rewrite Hx. simpl negb. cbv iota.
  rewrite Hs. simpl mbind at 1. simpl mbind at 1.
  etrans; [apply Err_show_step|].
  cbv zeta. by destruct Hc as [-> | (y & -> & Hy)]; simpl default;
    [simpl ToBoolean | rewrite Hy].
Qed.

(** [Err] on a value that is not an object: nothing but the two defaults
    and what spread copies. *)
Lemma Err_non_object v :
  is_object v = false →
  ∃ props,
    CopyDataProperties v = Normal props
    ∧ (∀ c k, is_digit c = false → props !! String c k = None)
    ∧ Err v = Err (Obj props).
Proof.
  intros Hv.
  assert (∃ props, CopyDataProperties v = Normal props
            ∧ ∀ c k, is_digit c = false → props !! String c k = None)
    as (props & Hs & Hnone).
  { destruct v; try discriminate Hv; simpl; eexists; (split; [reflexivity|]);
      intros c k Hc; first [by apply index_props_named | apply lookup_empty]. }
  exists props. split; [exact Hs|]. split; [exact Hnone|].
  apply (Err_falsy_code v Undefined props); try done.
  - by apply OptionalChain_non_object.
  - left. by apply Hnone.
Qed.

(** What spread keeps of an exotic object has no truthy [k] unless a read
    of [k] is truthy. *)
Lemma truthy_field_copied k slots :
  truthy_field k (Exotic slots) = false →
  truthy_field k (Obj (omap copied slots)) = false.
Proof.
  unfold truthy_field. rewrite lookup_omap.
  by destruct (slots !! k) as [[[|] [x|]]|].
Qed.

(** [Err] on an exotic object whose [code] reads falsy: only what spread
    copies is kept. *)
Lemma Err_Exotic_falsy_code slots :
  truthy_field "code" (Exotic slots) = false →
  throwing_field "code" (Exotic slots) = false →
  spread_throws slots = false →
  Err (Exotic slots) = Err (Obj (omap copied slots)).
Proof.
  intros Hf Ht Hs.
  destruct (OptionalChain_falsy _ _ Hf Ht eq_refl) as (x & Hr & Hx).
  apply (Err_falsy_code _ x); try done.
  - simpl. by rewrite Hs.
  - apply truthy_field_copied in Hf. unfold truthy_field in Hf.
    destruct (omap copied slots !! "code") as [y|]; eauto.
Qed.

(** [Err] on an exotic object whose [code] reads truthy: the first step
    leaves the object alone. *)
Lemma Err_Exotic_truthy_code slots p c :
  slots !! "code" = Some p → yields p = Some c → ToBoolean c = true →
  Err (Exotic slots)
  = (show ← OptionalChain (Exotic slots) "show";
     err ← (if negb (ToBoolean show)
            then props ← CopyDataProperties (Exotic slots);
                 mret (Obj (<["show" := Bool false]> props))
            else mret (Exotic slots));
     mret (failure err)).
Proof.
  intros Hl Hy Hc. unfold Err at 1.
  rewrite (OptionalChain_slot _ _ _ _ Hl Hy). simpl mbind at 1.
  rewrite Hc. reflexivity.
Qed.

(** Whatever [Err] returns is a failure record. *)
Lemma Err_returns_failure v r :
  Err v = Normal r → ∃ err, r = failure err.
Proof.
  unfold Err.
  destruct (OptionalChain v "code") as [c|]; [|discriminate]. simpl mbind at 1.
  destruct (if negb (ToBoolean c) then _ else _) as [e1|]; [|discriminate].
  simpl mbind at 1.
  destruct (OptionalChain e1 "show") as [s|]; [|discriminate]. simpl mbind at 1.
  destruct (if negb (ToBoolean s) then _ else _) as [e2|]; [|discriminate].
  simpl. intros [= <-]. eauto.
Qed.

(** On a plain record or a value that is not an object, [Err] returns a
    failure record whose [err] is an object with both [code] and [show]
    present. *)
Lemma Err_populated v :
  is_exotic v = false →
  ∃ r e,
    Err v = Normal r
    ∧ field "ok" r = Some (Bool false)
    ∧ field "err" r = Some (Obj e)
    ∧ is_Some (e !! "code") ∧ is_Some (e !! "show").
Proof.
  assert (∀ props, ∃ r e,
    Err (Obj props) = Normal r
    ∧ field "ok" r = Some (Bool false)
    ∧ field "err" r = Some (Obj e)
    ∧ is_Some (e !! "code") ∧ is_Some (e !! "show")) as Hobj.
  { intros props. eexists _, _. split; [apply Err_Obj|].
    split; [reflexivity|]. split; [reflexivity|]. cbv zeta.
    destruct (ToBoolean (default Undefined (props !! "code"))) eqn:Hc.
    - apply truthy_present in Hc.
      destruct (ToBoolean (default Undefined (props !! "show"))) eqn:Hs.
      + apply truthy_present in Hs. by split.
      + rewrite lookup_insert_ne by done. rewrite lookup_insert_eq.
        split; [done | eauto].
    - destruct (ToBoolean (default Undefined (_ !! "show"))) eqn:Hs.
      + apply truthy_present in Hs. rewrite lookup_insert_eq.
        split; [eauto | done].
      + rewrite lookup_insert_ne by done. rewrite !lookup_insert_eq.
        split; eauto. }
  intros Hx. destruct (is_object v) eqn:Hv.
  - destruct v; try discriminate Hv; [apply Hobj | discriminate Hx].
  - destruct (Err_non_object v Hv) as (props & _ & _ & ->). apply Hobj.
Qed.

(** Fields other than [code] and [show] pass through [Err] unchanged. *)
Lemma Err_frame props k :
  k ≠ "code" → k ≠ "show" →
  ∃ r e,
    Err (Obj props) = Normal r ∧ field "err" r = Some (Obj e)
    ∧ e !! k = props !! k.
Proof.
  intros Hc Hs. eexists _, _. split; [apply Err_Obj|]. split; [reflexivity|].
  cbv zeta.
  destruct (ToBoolean (default Undefined (props !! "code")));
    destruct (ToBoolean (default Undefined (_ !! "show")));
    by rewrite ?lookup_insert_ne by done.
Qed.

Lemma Err_defaults_Obj props msg :
  props !! "msg" = Some (Str msg) →
  truthy_field "code" (Obj props) = false →
  truthy_field "show" (Obj props) = false →
  ∃ r err,
    Err (Obj props) = Normal r
    ∧ field "ok" r = Some (Bool false)
    ∧ field "err" r = Some err
    ∧ field "msg" err = Some (Str msg)
    ∧ field "code" err = Some (Str "no_error_code")
    ∧ field "show" err = Some (Bool false).
Proof.
  intros Hm Hc Hs. rewrite truthy_field_Obj in Hc, Hs.
  eexists _, _. split; [apply Err_Obj|].
  split; [reflexivity|]. split; [reflexivity|].
  cbv zeta. rewrite Hc. rewrite lookup_insert_ne by done. rewrite Hs.
  unfold field. split_and!.
  - by rewrite !lookup_insert_ne by done.
  - rewrite lookup_insert_ne by done. by rewrite lookup_insert_eq.
  - by rewrite lookup_insert_eq.
Qed.

(** C1.  For every input record with a string [msg] and a falsy or absent
    [code] and [show], [Err] returns a failure record ([ok] is [false])
    whose [err.msg] is the input [msg], whose [err.code] is
    "no_error_code" and whose [err.show] is [false], so that both [code]
    and [show] are present.  This holds of a plain record, and of any
    other object whose [msg] is an own enumerable property, whose reads
    of [code] and [show] return a falsy value and whose spread does not
    throw.  On every plain record and every value that is not an object,
    whatever its [code] and [show], the returned [err] has both [code]
    and [show] present. *)
Theorem Err_fills_defaults props msg :
  props !! "msg" = Some (Str msg) →
  truthy_field "code" (Obj props) = false →
  truthy_field "show" (Obj props) = false →
  (∃ r err,
     Err (Obj props) = Normal r
     ∧ field "ok" r = Some (Bool false)
     ∧ field "err" r = Some err
     ∧ field "msg" err = Some (Str msg)
     ∧ field "code" err = Some (Str "no_error_code")
     ∧ field "show" err = Some (Bool false))
  ∧ (∀ v, is_exotic v = false → ∃ r e,
       Err v = Normal r
       ∧ field "ok" r = Some (Bool false)
       ∧ field "err" r = Some (Obj e)
       ∧ is_Some (e !! "code") ∧ is_Some (e !! "show"))
  ∧ (∀ slots,
       slots !! "msg" = Some (Property true (Some (Str msg))) →
       truthy_field "code" (Exotic slots) = false →
       throwing_field "code" (Exotic slots) = false →
       truthy_field "show" (Exotic slots) = false →
       spread_throws slots = false →
       ∃ r err,
         Err (Exotic slots) = Normal r
         ∧ field "ok" r = Some (Bool false)
         ∧ field "err" r = Some err
         ∧ field "msg" err = Some (Str msg)
         ∧ field "code" err = Some (Str "no_error_code")
         ∧ field "show" err = Some (Bool false)).
Proof.
  intros Hm Hc Hs. split; [by apply Err_defaults_Obj|].
  split; [apply Err_populated|].
  intros slots Hm' Hc' Ht' Hs' Hsp.
  rewrite Err_Exotic_falsy_code by done.
  apply Err_defaults_Obj.
  - rewrite lookup_omap, Hm'. reflexivity.
  - by apply truthy_field_copied.
  - by apply truthy_field_copied.
Qed.

Lemma Err_fills_defaults_witness :
  ({[ "msg" := Str "something went wrong" ]} : gmap string value) !! "msg"
  = Some (Str "something went wrong")
  ∧ truthy_field "code" (Obj {[ "msg" := Str "something went wrong" ]}) = false
  ∧ truthy_field "show" (Obj {[ "msg" := Str "something went wrong" ]}) = false
  ∧ ∃ r err,
      Err (Obj {[ "msg" := Str "something went wrong" ]}) = Normal r
      ∧ field "ok" r = Some (Bool false)
      ∧ field "err" r = Some err
      ∧ field "msg" err = Some (Str "something went wrong")
      ∧ field "code" err = Some (Str "no_error_code")
      ∧ field "show" err = Some (Bool false).
Proof.
  split; [reflexivity|]. split; [reflexivity|]. split; [reflexivity|].
  apply (Err_fills_defaults {[ "msg" := Str "something went wrong" ]}
           "something went wrong"); reflexivity.
Defined.

(** C2.  For every value [data], and also when the argument is omitted
    (then [data] is [undefined]), [Ok] completes normally with a success
    record: [ok] is [true] and the [data] field is the input value. *)
Theorem Ok_wraps_data :
  (∀ data, ∃ r,
     Ok (Some data) = Normal r
     ∧ field "ok" r = Some (Bool true) ∧ field "data" r = Some data)
  ∧ (∃ r,
     Ok None = Normal r
     ∧ field "ok" r = Some (Bool true) ∧ field "data" r = Some Undefined).
Proof.
  split; [intros data|]; eexists; (split; [reflexivity|]);
    split; reflexivity.
Qed.

(** C7.  For every input record whose [code] and [show] are truthy, [Err]
    keeps both as they are in the returned [err], and every other field
    of the input ([msg], and any extra field) passes through unchanged:
    [err] has the same fields as the input.  For an object that is not a
    plain record, [err] is the input object itself. *)
Theorem Err_preserves_truthy props c s :
  props !! "code" = Some c → ToBoolean c = true →
  props !! "show" = Some s → ToBoolean s = true →
  (∃ r e,
    Err (Obj props) = Normal r
    ∧ field "ok" r = Some (Bool false)
    ∧ field "err" r = Some (Obj e)
    ∧ e !! "code" = Some c
    ∧ e !! "show" = Some s
    ∧ e !! "msg" = props !! "msg"
    ∧ ∀ k, e !! k = props !! k)
  ∧ (∀ slots pc ps,
       slots !! "code" = Some pc → yields pc = Some c →
       slots !! "show" = Some ps → yields ps = Some s →
       ∃ r,
         Err (Exotic slots) = Normal r
         ∧ field "ok" r = Some (Bool false)
         ∧ field "err" r = Some (Exotic slots)).
Proof.
  intros Hc Hct Hs Hst. split.
  - exists (failure (Obj props)), props.
    split; [|by split_and!].
    rewrite Err_Obj. cbv zeta. rewrite Hc. simpl default. rewrite Hct.
    rewrite Hs. simpl default. by rewrite Hst.
  - intros slots pc ps Hlc Hyc Hls Hys. exists (failure (Exotic slots)).
    split; [|by split].
    rewrite (Err_Exotic_truthy_code _ _ _ Hlc Hyc Hct).
    rewrite (OptionalChain_slot _ _ _ _ Hls Hys). simpl mbind at 1.
    by rewrite Hst.
Qed.

Lemma Err_preserves_truthy_witness :
  ∃ r e,
    Err (Obj {[ "msg" := Str "bad"; "code" := Str "E1"; "show" := Bool true;
                "extra" := Num 1 ]}) = Normal r
    ∧ field "ok" r = Some (Bool false)
    ∧ field "err" r = Some (Obj e)
    ∧ e !! "code" = Some (Str "E1")
    ∧ e !! "show" = Some (Bool true)
    ∧ e !! "msg" = Some (Str "bad")
    ∧ e !! "extra" = Some (Num 1).
Proof.
  destruct (Err_preserves_truthy
              ({[ "msg" := Str "bad"; "code" := Str "E1"; "show" := Bool true;
                  "extra" := Num 1 ]} : gmap string value)
              (Str "E1") (Bool true))
    as [(r & e & Hr & Hok & He & Hc & Hs & Hm & Hk) _];
    [vm_compute; reflexivity..|].
  exists r, e. split_and!; [done.. | by rewrite Hm | by rewrite Hk].
Defined.

End constructors.


(* ===================================================================== *)
(** ** Further properties of the class                                    *)
(* ===================================================================== *)

Section class_properties.

Implicit Types (error dflt opt v x r : value) (k : string) (this z : Zeturn.t).
Implicit Types (props : gmap string value).
Implicit Types (slots : gmap string (property value)).

Lemma GetV_OptionalChain v k :
  is_nullish v = false → GetV v k = OptionalChain v k.
Proof. intros Hn. unfold OptionalChain. by rewrite Hn. Qed.

(** Plain member access on a value that is neither nullish nor an object
    reads a named key as [undefined]. *)
Lemma GetV_primitive v k :
  is_nullish v = false → is_object v = false → named_key k = true →
  GetV v k = Normal Undefined.
Proof.
  intros Hn Ho Hk. rewrite <-(OptionalChain_non_object v k Ho Hk).
  unfold OptionalChain. by rewrite Hn.
Qed.

Lemma extract_truthy k dflt error r :
  ToBoolean dflt = true → extract k dflt error = Normal r → ToBoolean r = true.
Proof.
  intros Hd. unfold extract.
  destruct (OptionalChain error k) as [x|]; [|discriminate]. simpl.
  destruct (ToBoolean x) eqn:Hx; simpl; intros [= <-]; done.
Qed.

Lemma LogicalOr_truthy a b : ToBoolean b = true → ToBoolean (LogicalOr a b) = true.
Proof. intros Hb. unfold LogicalOr. by destruct (ToBoolean a) eqn:Ha. Qed.

Lemma constructor_primitive opt :
  is_nullish opt = false → is_object opt = false →
  Zeturn.constructor opt
  = Normal (Zeturn.mk (Str Zeturn.NOT_FOUND_CODE) (Str Zeturn.NOT_FOUND_MSG)).
Proof.
  intros Hn Ho. unfold Zeturn.constructor.
  by rewrite !GetV_primitive by done.
Qed.

Lemma constructor_inv opt z :
  Zeturn.constructor opt = Normal z →
  ToBoolean (Zeturn.notFoundCode z) = true
  ∧ ToBoolean (Zeturn.notFoundMsg z) = true.
Proof.
  unfold Zeturn.constructor.
  destruct (GetV opt "notFoundCode") as [c|]; [|discriminate]. simpl mbind at 1.
  destruct (GetV opt "notFoundMsg") as [m|]; [|discriminate]. simpl.
  intros [= <-]. simpl. split; by apply LogicalOr_truthy.
Qed.

Lemma constructor_normal opt :
  is_nullish opt = false →
  throwing_field "notFoundCode" opt = false →
  throwing_field "notFoundMsg" opt = false →
  ∃ z, Zeturn.constructor opt = Normal z.
Proof.
  intros Hn Hc Hm. unfold Zeturn.constructor.
  rewrite !GetV_OptionalChain by done.
  destruct (OptionalChain_normal _ _ Hc) as [c ->].
  destruct (OptionalChain_normal _ _ Hm) as [m ->]. simpl. eauto.
Qed.

(** X1.  [new Zeturn(opt)] throws a [TypeError] when [opt] is [undefined]
    or [null], and throws what the getter or proxy trap throws when the
    read of [notFoundCode] or of [notFoundMsg] does; on every other
    value, object or primitive, it returns an instance. *)
Theorem constructor_throws_on_nullish_or_throwing_read opt :
  (is_nullish opt = true → Zeturn.constructor opt = Throw TypeError)
  ∧ (is_nullish opt = false →
     throwing_field "notFoundCode" opt = false →
     throwing_field "notFoundMsg" opt = false →
     ∃ z, Zeturn.constructor opt = Normal z)
  ∧ (throwing_field "notFoundCode" opt = true
     ∨ throwing_field "notFoundMsg" opt = true →
     Zeturn.constructor opt = Throw Thrown).
Proof.
  split_and!.
  - intros Hn. by destruct opt.
  - apply constructor_normal.
  - intros Ht. destruct opt; try (by destruct Ht).
    unfold Zeturn.constructor. rewrite !GetV_OptionalChain by done.
    destruct (throwing_field "notFoundCode" (Exotic slots)) eqn:Hc.
    + by rewrite (OptionalChain_throws _ _ Hc).
    + destruct (OptionalChain_normal _ _ Hc) as [c ->]. simpl mbind at 1.
      destruct Ht as [Ht|Ht]; [discriminate Ht|].
      by rewrite (OptionalChain_throws _ _ Ht).
Qed.

Lemma constructor_throws_on_nullish_or_throwing_read_witness :
  (is_nullish Undefined = true
   ∧ Zeturn.constructor Undefined = Throw TypeError)
  ∧ (is_nullish (Str "cfg") = false
     ∧ throwing_field "notFoundCode" (Str "cfg") = false
     ∧ throwing_field "notFoundMsg" (Str "cfg") = false
     ∧ ∃ z, Zeturn.constructor (Str "cfg") = Normal z)
  ∧ (throwing_field "notFoundMsg"
       (Exotic {[ "notFoundMsg" := Property true None ]}) = true
     ∧ Zeturn.constructor (Exotic {[ "notFoundMsg" := Property true None ]})
       = Throw Thrown).
Proof.
  split; [split; [reflexivity|] |]; [|split].
  - apply (proj1 (constructor_throws_on_nullish_or_throwing_read Undefined)).
    reflexivity.
  - split; [reflexivity|]. split; [reflexivity|]. split; [reflexivity|].
    apply (proj1 (proj2 (constructor_throws_on_nullish_or_throwing_read
                           (Str "cfg")))); reflexivity.
  - split; [reflexivity|].
    apply (proj2 (proj2 (constructor_throws_on_nullish_or_throwing_read
                           (Exotic {[ "notFoundMsg" := Property true None ]})))).
    right. reflexivity.
Defined.

(** X2.  A configuration that is a primitive other than [undefined] and
    [null] (a number, a string, a boolean, ...) is accepted and behaves as
    the empty configuration: the instance stores both global sentinels. *)
Theorem constructor_primitive_config_defaults opt :
  is_nullish opt = false → is_object opt = false →
  ∃ z,
    Zeturn.constructor opt = Normal z
    ∧ Zeturn.constructor (Obj ∅) = Normal z
    ∧ Zeturn.notFoundCode z = Str "zeturn_unknown"
    ∧ Zeturn.notFoundMsg z = Str "zeturn: unknown".
Proof.
  intros Hn Ho. eexists. split; [by apply constructor_primitive|].
  by split_and!.
Qed.

Lemma constructor_primitive_config_defaults_witness :
  is_nullish (Num 7) = false ∧ is_object (Num 7) = false
  ∧ ∃ z,
      Zeturn.constructor (Num 7) = Normal z
      ∧ Zeturn.constructor (Obj ∅) = Normal z
      ∧ Zeturn.notFoundCode z = Str "zeturn_unknown"
      ∧ Zeturn.notFoundMsg z = Str "zeturn: unknown".
Proof.
  split; [reflexivity|]. split; [reflexivity|].
  apply (constructor_primitive_config_defaults (Num 7)); reflexivity.
Defined.

(** X3.  A truthy override is stored as it is, whatever its run-time type,
    and becomes the fallback of the corresponding instance operation; the
    two overrides are handled independently of each other. *)
Theorem truthy_override_honoured props :
  ∃ z,
    Zeturn.constructor (Obj props) = Normal z
    ∧ (∀ c, props !! "notFoundCode" = Some c → ToBoolean c = true →
         Zeturn.notFoundCode z = c
         ∧ ∀ error, truthy_field "code" error = false →
             throwing_field "code" error = false →
             Zeturn.Instance.codeFromError z error = Normal c)
    ∧ (∀ m, props !! "notFoundMsg" = Some m → ToBoolean m = true →
         Zeturn.notFoundMsg z = m
         ∧ ∀ error, truthy_field "message" error = false →
             throwing_field "message" error = false →
             Zeturn.Instance.msgFromError z error = Normal m).
Proof.
  eexists. split; [apply constructor_Obj|]. split.
  - intros c Hl Hc. simpl Zeturn.notFoundCode. rewrite Hl. simpl default.
    unfold LogicalOr. rewrite Hc. split; [reflexivity|].
    intros error Hf Ht. rewrite instance_code_extract. by apply extract_default.
  - intros m Hl Hm. simpl Zeturn.notFoundMsg. rewrite Hl. simpl default.
    unfold LogicalOr. rewrite Hm. split; [reflexivity|].
    intros error Hf Ht. rewrite instance_msg_extract. by apply extract_default.
Qed.

Lemma truthy_override_honoured_witness :
  ({[ "notFoundMsg" := Num 500 ]} : gmap string value) !! "notFoundMsg"
  = Some (Num 500)
  ∧ ToBoolean (Num 500) = true
  ∧ truthy_field "message" (Obj {[ "message" := Str "" ]}) = false
  ∧ throwing_field "message" (Obj {[ "message" := Str "" ]}) = false
  ∧ ∃ z,
      Zeturn.constructor (Obj {[ "notFoundMsg" := Num 500 ]}) = Normal z
      ∧ Zeturn.notFoundMsg z = Num 500
      ∧ Zeturn.Instance.msgFromError z (Obj {[ "message" := Str "" ]})
        = Normal (Num 500).
Proof.
  split; [reflexivity|]. split; [reflexivity|]. split; [reflexivity|].
  split; [reflexivity|].
  destruct (truthy_override_honoured {[ "notFoundMsg" := Num 500 ]})
    as (z & Hz & _ & Hm).
  exists z. split; [exact Hz|].
  destruct (Hm (Num 500) eq_refl eq_refl) as [Hs Ha].
  split; [exact Hs | apply Ha; reflexivity].
Defined.

(** X4.  Whatever configuration it is given, an instance that the
    constructor returns holds truthy defaults in both fields. *)
Theorem constructor_defaults_truthy opt z :
  Zeturn.constructor opt = Normal z →
  ToBoolean (Zeturn.notFoundCode z) = true
  ∧ ToBoolean (Zeturn.notFoundMsg z) = true.
Proof. apply constructor_inv. Qed.

Lemma constructor_defaults_truthy_witness :
  Zeturn.constructor (Obj {[ "notFoundCode" := Num 0 ]})
  = Normal (Zeturn.mk (Str "zeturn_unknown") (Str "zeturn: unknown"))
  ∧ ToBoolean (Str "zeturn_unknown") = true
  ∧ ToBoolean (Str "zeturn: unknown") = true.
Proof.
  split; [reflexivity|].
  apply (constructor_defaults_truthy (Obj {[ "notFoundCode" := Num 0 ]})
           (Zeturn.mk (Str "zeturn_unknown") (Str "zeturn: unknown"))).
  reflexivity.
Defined.

(** X5.  The static operations never return a falsy value: whatever the
    input, the result of [Zeturn.codeFromError] and of
    [Zeturn.msgFromError] is truthy (never [undefined], [null], the empty
    string, zero or [NaN]). *)
Theorem static_results_truthy error r :
  (Zeturn.codeFromError error = Normal r → ToBoolean r = true)
  ∧ (Zeturn.msgFromError error = Normal r → ToBoolean r = true).
Proof.
  rewrite static_code_extract, static_msg_extract.
  split; by apply extract_truthy.
Qed.

Lemma static_results_truthy_witness :
  Zeturn.codeFromError (Obj {[ "code" := Num 0 ]}) = Normal (Str "zeturn_unknown")
  ∧ ToBoolean (Str "zeturn_unknown") = true.
Proof.
  split; [reflexivity|].
  apply (proj1 (static_results_truthy (Obj {[ "code" := Num 0 ]})
                  (Str "zeturn_unknown"))).
  reflexivity.
Defined.

(** X6.  The operations of an instance that the constructor returned never
    return a falsy value either, whatever the configuration and the
    input. *)
Theorem constructed_instance_results_truthy opt z error r :
  Zeturn.constructor opt = Normal z →
  (Zeturn.Instance.codeFromError z error = Normal r → ToBoolean r = true)
  ∧ (Zeturn.Instance.msgFromError z error = Normal r → ToBoolean r = true).
Proof.
  intros [Hc Hm]%constructor_inv.
  rewrite instance_code_extract, instance_msg_extract.
  split; by apply extract_truthy.
Qed.

Lemma constructed_instance_results_truthy_witness :
  Zeturn.constructor (Obj {[ "notFoundMsg" := Str "" ]})
  = Normal (Zeturn.mk (Str "zeturn_unknown") (Str "zeturn: unknown"))
  ∧ Zeturn.Instance.msgFromError
      (Zeturn.mk (Str "zeturn_unknown") (Str "zeturn: unknown")) Null
    = Normal (Str "zeturn: unknown")
  ∧ ToBoolean (Str "zeturn: unknown") = true.
Proof.
  split; [reflexivity|]. split; [reflexivity|].
  destruct (constructed_instance_results_truthy
              (Obj {[ "notFoundMsg" := Str "" ]})
              (Zeturn.mk (Str "zeturn_unknown") (Str "zeturn: unknown"))
              Null (Str "zeturn: unknown")) as [_ Hm]; [reflexivity|].
  apply Hm. reflexivity.
Defined.

(** X7.  A present, truthy field always wins over the configuration: the
    instance operations return it as it is, exactly as the static ones
    do, whatever defaults the instance holds. *)
Theorem instance_returns_present_field this props x :
  (props !! "code" = Some x → ToBoolean x = true →
     Zeturn.Instance.codeFromError this (Obj props) = Normal x
     ∧ Zeturn.Instance.codeFromError this (Obj props)
       = Zeturn.codeFromError (Obj props))
  ∧ (props !! "message" = Some x → ToBoolean x = true →
     Zeturn.Instance.msgFromError this (Obj props) = Normal x
     ∧ Zeturn.Instance.msgFromError this (Obj props)
       = Zeturn.msgFromError (Obj props)).
Proof.
  rewrite instance_code_extract, instance_msg_extract,
    static_code_extract, static_msg_extract.
  split; intros Hl Hx; by rewrite !(extract_present _ _ props x).
Qed.

Lemma instance_returns_present_field_witness :
  ({[ "code" := Str "E42" ]} : gmap string value) !! "code" = Some (Str "E42")
  ∧ ToBoolean (Str "E42") = true
  ∧ Zeturn.Instance.codeFromError (Zeturn.mk (Str "c") (Str "m"))
      (Obj {[ "code" := Str "E42" ]}) = Normal (Str "E42").
Proof.
  split; [reflexivity|]. split; [reflexivity|].
  apply (proj1 (instance_returns_present_field (Zeturn.mk (Str "c") (Str "m"))
                  {[ "code" := Str "E42" ]} (Str "E42"))); reflexivity.
Defined.

(** X8.  Each operation reads one key only: two objects that agree on
    [code] give the same [codeFromError], and two that agree on [message]
    the same [msgFromError], in static and in instance mode, whatever
    their other fields are. *)
Theorem extraction_reads_one_key this props props' :
  (props !! "code" = props' !! "code" →
     Zeturn.codeFromError (Obj props) = Zeturn.codeFromError (Obj props')
     ∧ Zeturn.Instance.codeFromError this (Obj props)
       = Zeturn.Instance.codeFromError this (Obj props'))
  ∧ (props !! "message" = props' !! "message" →
     Zeturn.msgFromError (Obj props) = Zeturn.msgFromError (Obj props')
     ∧ Zeturn.Instance.msgFromError this (Obj props)
       = Zeturn.Instance.msgFromError this (Obj props')).
Proof.
  rewrite !instance_code_extract, !instance_msg_extract,
    !static_code_extract, !static_msg_extract.
  unfold extract. rewrite !OptionalChain_Obj.
  split; by intros ->.
Qed.

Lemma extraction_reads_one_key_witness :
  ({[ "code" := Str "E1"; "message" := Str "a" ]} : gmap string value) !! "code"
  = ({[ "code" := Str "E1"; "stack" := Str "b" ]} : gmap string value) !! "code"
  ∧ Zeturn.codeFromError (Obj {[ "code" := Str "E1"; "message" := Str "a" ]})
    = Zeturn.codeFromError (Obj {[ "code" := Str "E1"; "stack" := Str "b" ]}).
Proof.
  split; [vm_compute; reflexivity|].
  apply (proj1 (extraction_reads_one_key (Zeturn.mk Null Null)
                  ({[ "code" := Str "E1"; "message" := Str "a" ]}
                     : gmap string value)
                  ({[ "code" := Str "E1"; "stack" := Str "b" ]}
                     : gmap string value))).
  vm_compute; reflexivity.
Defined.

End class_properties.


(* ===================================================================== *)
(** ** Further properties of the result module                            *)
(* ===================================================================== *)

Section result_properties.

Implicit Types (v x r err data : value) (k : string) (this : Zeturn.t).
Implicit Types (props e : gmap string value).
Implicit Types (slots : gmap string (property value)).

Lemma default_truthy props k :
  ToBoolean (default Undefined (props !! k)) = true →
  ∃ x, props !! k = Some x ∧ ToBoolean x = true.
Proof. destruct (props !! k) as [x|]; [eauto | discriminate]. Qed.

Lemma field_err_failure err : field "err" (failure err) = Some err.
Proof. unfold field, failure. apply lookup_insert_eq. Qed.

Lemma field_ok_failure err : field "ok" (failure err) = Some (Bool false).
Proof.
  unfold field, failure. rewrite lookup_insert_ne by done.
  apply lookup_insert_eq.
Qed.

(** What [Err] returns on a record: the fields of the input, with [code]
    and [show] normalised one independently of the other. *)
Lemma Err_record_shape props :
  ∃ e,
    Err (Obj props) = Normal (failure (Obj e))
    ∧ e !! "code"
      = Some (if truthy_field "code" (Obj props)
              then default Undefined (props !! "code")
              else Str NO_ERROR_CODE)
    ∧ e !! "show"
      = Some (if truthy_field "show" (Obj props)
              then default Undefined (props !! "show")
              else Bool false)
    ∧ ∀ k, k ≠ "code" → k ≠ "show" → e !! k = props !! k.
Proof.
  eexists. split; [apply Err_Obj|]. cbv zeta. rewrite !truthy_field_Obj.
  destruct (ToBoolean (default Undefined (props !! "code"))) eqn:Hc.
  - apply default_truthy in Hc as (c & Hc & _).
    destruct (ToBoolean (default Undefined (props !! "show"))) eqn:Hs.
    + apply default_truthy in Hs as (s & Hs & _).
      by rewrite Hc, Hs.
    + rewrite lookup_insert_eq, lookup_insert_ne, Hc by done.
      split_and!; try done. intros k _ Hk. by rewrite lookup_insert_ne.
  - rewrite (lookup_insert_ne _ "code" "show") by done.
    destruct (ToBoolean (default Undefined (props !! "show"))) eqn:Hs.
    + apply default_truthy in Hs as (s & Hs & _).
      rewrite lookup_insert_eq, lookup_insert_ne, Hs by done.
      split_and!; try done. intros k Hk _. by rewrite lookup_insert_ne.
    + rewrite lookup_insert_eq, lookup_insert_ne, lookup_insert_eq by done.
      split_and!; try done. intros k Hk Hk'. by rewrite !lookup_insert_ne.
Qed.

(** What [Err] returns on a plain record or on a value that is not an
    object: a failure record whose [err] has a truthy [code], and a
    [show] that is truthy or the boolean [false]. *)
Lemma Err_shape v :
  is_exotic v = false →
  ∃ e c s,
    Err v = Normal (failure (Obj e))
    ∧ e !! "code" = Some c ∧ ToBoolean c = true
    ∧ e !! "show" = Some s ∧ (ToBoolean s = true ∨ s = Bool false).
Proof.
  assert (∀ props, ∃ e c s,
    Err (Obj props) = Normal (failure (Obj e))
    ∧ e !! "code" = Some c ∧ ToBoolean c = true
    ∧ e !! "show" = Some s ∧ (ToBoolean s = true ∨ s = Bool false)) as Hobj.
  { intros props. destruct (Err_record_shape props) as (e & He & Hc & Hs & _).
    exists e. eexists _, _. split; [exact He|].
    split; [exact Hc|]. split; [|split; [exact Hs|]].
    - rewrite truthy_field_Obj.
      by destruct (ToBoolean (default Undefined (props !! "code"))) eqn:E.
    - rewrite truthy_field_Obj.
      destruct (ToBoolean (default Undefined (props !! "show"))) eqn:E; eauto. }
  intros Hx. destruct (is_object v) eqn:Hv.
  - destruct v; try discriminate Hv; [apply Hobj | discriminate Hx].
  - destruct (Err_non_object v Hv) as (props & _ & _ & ->). apply Hobj.
Qed.

(** X9.  On every plain record (an object all of whose properties are
    own enumerable data properties) [Err] keeps all the fields other than
    [code] and [show] as they are, whether or not it fills in a default,
    and the returned [err] has exactly the keys of the input together
    with [code] and [show]: nothing is dropped and nothing else is
    added. *)
Theorem Err_passes_other_fields props :
  ∃ r e,
    Err (Obj props) = Normal r
    ∧ field "err" r = Some (Obj e)
    ∧ (∀ k, k ≠ "code" → k ≠ "show" → e !! k = props !! k)
    ∧ dom e = dom props ∪ {[ "code"; "show" ]}.
Proof.
  destruct (Err_record_shape props) as (e & He & Hc & Hs & Hk).
  exists (failure (Obj e)), e. split; [exact He|].
  split; [apply field_err_failure|]. split; [exact Hk|].
  apply set_eq. intros k.
  rewrite elem_of_union, !elem_of_dom, elem_of_union, !elem_of_singleton.
  destruct (decide (k = "code")) as [->|Hnc].
  { rewrite Hc. split; eauto. }
  destruct (decide (k = "show")) as [->|Hns].
  { rewrite Hs. split; eauto. }
  rewrite Hk by done. split; [eauto|]. by intros [?|[?|?]].
Qed.

Lemma Err_passes_other_fields_witness :
  ∃ r e,
    Err (Obj {[ "msg" := Str "bad"; "cause" := Num 3 ]}) = Normal r
    ∧ field "err" r = Some (Obj e)
    ∧ e !! "msg" = Some (Str "bad")
    ∧ e !! "cause" = Some (Num 3).
Proof.
  destruct (Err_passes_other_fields
              ({[ "msg" := Str "bad"; "cause" := Num 3 ]} : gmap string value))
    as (r & e & Hr & He & Hk & _).
  exists r, e. split; [exact Hr|]. split; [exact He|].
  split; (rewrite Hk; [vm_compute; reflexivity | discriminate..]).
Defined.

(** X10.  On a plain record [Err] normalises [code] and [show] one
    independently of the other: a truthy [code] is kept and a falsy or absent one becomes
    "no_error_code", whatever [show] is; a truthy [show] is kept and a
    falsy or absent one becomes [false], whatever [code] is. *)
Theorem Err_normalises_independently props :
  ∃ r e,
    Err (Obj props) = Normal r
    ∧ field "err" r = Some (Obj e)
    ∧ (∀ c, props !! "code" = Some c → ToBoolean c = true →
         e !! "code" = Some c)
    ∧ (truthy_field "code" (Obj props) = false →
         e !! "code" = Some (Str "no_error_code"))
    ∧ (∀ s, props !! "show" = Some s → ToBoolean s = true →
         e !! "show" = Some s)
    ∧ (truthy_field "show" (Obj props) = false →
         e !! "show" = Some (Bool false)).
Proof.
  destruct (Err_record_shape props) as (e & He & Hc & Hs & _).
  exists (failure (Obj e)), e. split; [exact He|].
  split; [apply field_err_failure|]. split_and!.
  - intros c Hl Ht. rewrite Hc. unfold truthy_field. by rewrite Hl, Ht.
  - intros Hf. by rewrite Hc, Hf.
  - intros s Hl Ht. rewrite Hs. unfold truthy_field. by rewrite Hl, Ht.
  - intros Hf. by rewrite Hs, Hf.
Qed.

Lemma Err_normalises_independently_witness :
  ({[ "msg" := Str "bad"; "code" := Str ""; "show" := Bool true ]}
     : gmap string value) !! "show" = Some (Bool true)
  ∧ ToBoolean (Bool true) = true
  ∧ truthy_field "code"
      (Obj {[ "msg" := Str "bad"; "code" := Str ""; "show" := Bool true ]})
    = false
  ∧ ∃ r e,
      Err (Obj {[ "msg" := Str "bad"; "code" := Str ""; "show" := Bool true ]})
      = Normal r
      ∧ field "err" r = Some (Obj e)
      ∧ e !! "code" = Some (Str "no_error_code")
      ∧ e !! "show" = Some (Bool true).
Proof.
  split; [vm_compute; reflexivity|]. split; [reflexivity|].
  split; [vm_compute; reflexivity|].
  destruct (Err_normalises_independently
              ({[ "msg" := Str "bad"; "code" := Str ""; "show" := Bool true ]}
                 : gmap string value))
    as (r & e & Hr & He & _ & Hc & Hs & _).
  exists r, e. split; [exact Hr|]. split; [exact He|]. split.
  - apply Hc. vm_compute; reflexivity.
  - apply (Hs (Bool true)); [vm_compute; reflexivity | reflexivity].
Defined.

(** X11.  When [Err] receives a plain record or a value that is not an
    object, the [code] of the returned [err] is truthy, and its [show] is
    either truthy or the boolean [false]: no other falsy value
    ([undefined], [null], [0], the empty string) survives in these two
    fields. *)
Theorem Err_code_truthy_show_normal v :
  is_exotic v = false →
  ∃ r e c s,
    Err v = Normal r
    ∧ field "err" r = Some (Obj e)
    ∧ e !! "code" = Some c ∧ ToBoolean c = true
    ∧ e !! "show" = Some s ∧ (ToBoolean s = true ∨ s = Bool false).
Proof.
  intros Hx.
  destruct (Err_shape v Hx) as (e & c & s & He & Hc & Hct & Hs & Hst).
  exists (failure (Obj e)), e, c, s.
  split; [exact He|]. split; [apply field_err_failure|]. done.
Qed.

Lemma Err_code_truthy_show_normal_witness :
  is_exotic (Obj {[ "msg" := Str "bad"; "code" := Num 0 ]}) = false
  ∧ ∃ r e c s,
      Err (Obj {[ "msg" := Str "bad"; "code" := Num 0 ]}) = Normal r
      ∧ field "err" r = Some (Obj e)
      ∧ e !! "code" = Some c ∧ ToBoolean c = true
      ∧ e !! "show" = Some s ∧ (ToBoolean s = true ∨ s = Bool false).
Proof.
  split; [reflexivity|].
  apply (Err_code_truthy_show_normal
           (Obj {[ "msg" := Str "bad"; "code" := Num 0 ]})).
  reflexivity.
Defined.

(** X12.  On a plain record or a value that is not an object [Err] is
    idempotent: passing the [err] of the result back to [Err] returns the
    same result. *)
Theorem Err_idempotent v r err :
  is_exotic v = false →
  Err v = Normal r → field "err" r = Some err → Err err = Normal r.
Proof.
  intros Hx.
  destruct (Err_shape v Hx) as (e & c & s & He & Hc & Hct & Hs & Hst).
  rewrite He. intros [= <-]. rewrite field_err_failure. intros [= <-].
  rewrite Err_Obj. cbv zeta. rewrite Hc. simpl default. rewrite Hct, Hs.
  simpl default. destruct Hst as [Hst | ->].
  - by rewrite Hst.
  - simpl ToBoolean. cbv iota. by rewrite insert_id.
Qed.

Lemma Err_idempotent_witness :
  is_exotic (Obj {[ "msg" := Str "bad" ]}) = false
  ∧ Err (Obj {[ "msg" := Str "bad" ]})
  = Normal (failure (Obj {[ "msg" := Str "bad";
                            "code" := Str "no_error_code";
                            "show" := Bool false ]}))
  ∧ Err (Obj {[ "msg" := Str "bad"; "code" := Str "no_error_code";
                "show" := Bool false ]})
    = Normal (failure (Obj {[ "msg" := Str "bad";
                              "code" := Str "no_error_code";
                              "show" := Bool false ]})).
Proof.
  assert (Err (Obj {[ "msg" := Str "bad" ]})
          = Normal (failure (Obj {[ "msg" := Str "bad";
                                    "code" := Str "no_error_code";
                                    "show" := Bool false ]}))) as H
    by (vm_compute; reflexivity).
  split; [reflexivity|]. split; [exact H|].
  apply (Err_idempotent (Obj {[ "msg" := Str "bad" ]}) _ _ eq_refl H).
  vm_compute; reflexivity.
Defined.

(** X13.  [Err] does not throw on an argument that is not an object
    ([null], [undefined], a number, a string, ...): it returns a failure
    record whose [err] has the two defaults and no [msg]. *)
Theorem Err_non_record_defaults v :
  is_object v = false →
  ∃ r e,
    Err v = Normal r
    ∧ field "ok" r = Some (Bool false)
    ∧ field "err" r = Some (Obj e)
    ∧ e !! "code" = Some (Str "no_error_code")
    ∧ e !! "show" = Some (Bool false)
    ∧ e !! "msg" = None.
Proof.
  intros Hv. destruct (Err_non_object v Hv) as (props & _ & Hnone & ->).
  destruct (Err_record_shape props) as (e & He & Hc & Hs & Hk).
  exists (failure (Obj e)), e. split; [exact He|].
  split; [apply field_ok_failure|]. split; [apply field_err_failure|].
  rewrite !truthy_field_Obj in Hc, Hs.
  rewrite !Hnone in Hc, Hs by done.
  split; [exact Hc|]. split; [exact Hs|].
  rewrite Hk by done. by apply Hnone.
Qed.

Lemma Err_non_record_defaults_witness :
  is_object Null = false
  ∧ ∃ r e,
      Err Null = Normal r
      ∧ field "ok" r = Some (Bool false)
      ∧ field "err" r = Some (Obj e)
      ∧ e !! "code" = Some (Str "no_error_code")
      ∧ e !! "show" = Some (Bool false)
      ∧ e !! "msg" = None.
Proof.
  split; [reflexivity|]. apply (Err_non_record_defaults Null). reflexivity.
Defined.

(** X14.  [msgFromError] does not read what [Err] stores: the [err] that
    [Err] returns for a record with a [msg] but no [message] still carries
    that [msg], yet [msgFromError] applied to it falls back to the
    default, in static and in instance mode. *)
Theorem msgFromError_ignores_Err_msg this props m :
  props !! "msg" = Some m → props !! "message" = None →
  ∃ r err,
    Err (Obj props) = Normal r
    ∧ field "err" r = Some err
    ∧ field "msg" err = Some m
    ∧ Zeturn.msgFromError err = Normal (Str "zeturn: unknown")
    ∧ Zeturn.Instance.msgFromError this err = Normal (Zeturn.notFoundMsg this).
Proof.
  intros Hm Hn.
  destruct (Err_record_shape props) as (e & He & _ & _ & Hk).
  exists (failure (Obj e)), (Obj e). split; [exact He|].
  split; [apply field_err_failure|].
  assert (truthy_field "message" (Obj e) = false) as Hf.
  { unfold truthy_field. by rewrite Hk, Hn. }
  split; [unfold field; by rewrite Hk|].
  rewrite static_msg_extract, instance_msg_extract.
  by rewrite !extract_default.
Qed.

Lemma msgFromError_ignores_Err_msg_witness :
  ({[ "msg" := Str "something went wrong" ]} : gmap string value) !! "msg"
  = Some (Str "something went wrong")
  ∧ ({[ "msg" := Str "something went wrong" ]} : gmap string value)
      !! "message" = None
  ∧ ∃ r err,
      Err (Obj {[ "msg" := Str "something went wrong" ]}) = Normal r
      ∧ field "err" r = Some err
      ∧ field "msg" err = Some (Str "something went wrong")
      ∧ Zeturn.msgFromError err = Normal (Str "zeturn: unknown")
      ∧ Zeturn.Instance.msgFromError (Zeturn.mk (Str "c") (Str "m")) err
        = Normal (Str "m").
Proof.
  split; [reflexivity|]. split; [reflexivity|].
  apply (msgFromError_ignores_Err_msg (Zeturn.mk (Str "c") (Str "m"))
           {[ "msg" := Str "something went wrong" ]}
           (Str "something went wrong")); reflexivity.
Defined.

(** X15.  When [Err] receives a plain record or a value that is not an
    object, [codeFromError] applied to the [err] of its result returns
    that [err]'s [code] and never its own fallback, in static and in
    instance mode: the code that [Err] stored is found. *)
Theorem codeFromError_reads_Err_code this v :
  is_exotic v = false →
  ∃ r err c,
    Err v = Normal r
    ∧ field "err" r = Some err
    ∧ field "code" err = Some c
    ∧ Zeturn.codeFromError err = Normal c
    ∧ Zeturn.Instance.codeFromError this err = Normal c.
Proof.
  intros Hx. destruct (Err_shape v Hx) as (e & c & s & He & Hc & Hct & _).
  exists (failure (Obj e)), (Obj e), c. split; [exact He|].
  split; [apply field_err_failure|]. split; [exact Hc|].
  rewrite static_code_extract, instance_code_extract.
  by rewrite !(extract_present _ _ e c).
Qed.

Lemma codeFromError_reads_Err_code_witness :
  is_exotic Null = false
  ∧ ∃ r err c,
      Err Null = Normal r
      ∧ field "err" r = Some err
      ∧ field "code" err = Some c
      ∧ Zeturn.codeFromError err = Normal c
      ∧ Zeturn.Instance.codeFromError (Zeturn.mk (Str "c") (Str "m")) err
        = Normal c.
Proof.
  split; [reflexivity|].
  apply (codeFromError_reads_Err_code (Zeturn.mk (Str "c") (Str "m")) Null).
  reflexivity.
Defined.

(** X16.  The two constructors produce disjoint shapes: an [Ok] result has
    [ok] true and no [err] field, an [Err] result has [ok] false and no
    [data] field, so no [Ok] result is equal to an [Err] result, whatever
    the payloads. *)
Theorem Ok_Err_results_disjoint arg v r1 r2 :
  Ok arg = Normal r1 → Err v = Normal r2 →
  field "ok" r1 = Some (Bool true) ∧ field "err" r1 = None
  ∧ field "ok" r2 = Some (Bool false) ∧ field "data" r2 = None
  ∧ r1 ≠ r2.
Proof.
  intros [= <-]. intros [e ->]%Err_returns_failure.
  assert (field "ok" (success (param arg)) = Some (Bool true)) as H1.
  { unfold field, success. rewrite lookup_insert_ne by done.
    apply lookup_insert_eq. }
  split; [exact H1|]. split.
  { unfold field, success. rewrite !lookup_insert_ne by done.
    apply lookup_empty. }
  split; [apply field_ok_failure|]. split.
  { unfold field, failure. rewrite !lookup_insert_ne by done.
    apply lookup_empty. }
  intros Heq. rewrite Heq, field_ok_failure in H1. discriminate H1.
Qed.

Lemma Ok_Err_results_disjoint_witness :
  success (Obj {[ "err" := Str "x" ]}) ≠ failure (Obj {[ "code" := Str "c";
                                                         "show" := Bool true ]}).
Proof.
  apply (Ok_Err_results_disjoint (Some (Obj {[ "err" := Str "x" ]}))
           (Obj {[ "code" := Str "c"; "show" := Bool true ]})
           (success (Obj {[ "err" := Str "x" ]}))
           (failure (Obj {[ "code" := Str "c"; "show" := Bool true ]})));
    vm_compute; reflexivity.
Defined.

(** X17.  [Err] can return an [err] without [code].  For an object whose
    truthy [code] is not an own enumerable property (a getter on the
    prototype of a class, a non-enumerable property) and whose [show]
    reads falsy, the code default is skipped because [code] reads truthy,
    and the spread that fills in [show] then leaves [code] behind: the
    returned [err] has [show] false and no [code], and [codeFromError]
    applied to it falls back to its sentinel. *)
Theorem Err_drops_hidden_code slots c :
  slots !! "code" = Some (Property false (Some c)) → ToBoolean c = true →
  truthy_field "show" (Exotic slots) = false →
  throwing_field "show" (Exotic slots) = false →
  spread_throws slots = false →
  ∃ r e,
    Err (Exotic slots) = Normal r
    ∧ field "ok" r = Some (Bool false)
    ∧ field "err" r = Some (Obj e)
    ∧ e !! "code" = None
    ∧ e !! "show" = Some (Bool false)
    ∧ (∀ k, k ≠ "show" → e !! k = slots !! k ≫= copied)
    ∧ Zeturn.codeFromError (Obj e) = Normal (Str "zeturn_unknown").
Proof.
  intros Hc Hct Hsf Hst Hsp.
  destruct (OptionalChain_falsy _ _ Hsf Hst eq_refl) as (s & Hr & Hs).
  assert (Err (Exotic slots)
          = Normal (failure (Obj (<["show" := Bool false]> (omap copied slots)))))
    as He.
  { rewrite (Err_Exotic_truthy_code _ _ _ Hc eq_refl Hct).
    rewrite Hr. simpl mbind at 1. rewrite Hs. simpl negb. cbv iota.
    simpl CopyDataProperties. by rewrite Hsp. }
  assert ((<["show" := Bool false]> (omap copied slots) : gmap string value)
            !! "code" = None) as Hnc.
  { rewrite lookup_insert_ne by done. by rewrite lookup_omap, Hc. }
  eexists _, _. split; [exact He|]. split; [apply field_ok_failure|].
  split; [apply field_err_failure|]. split; [exact Hnc|].
  split; [apply lookup_insert_eq|]. split.
  - intros k Hk. rewrite lookup_insert_ne by done. apply lookup_omap.
  - rewrite static_code_extract. apply extract_default; try done.
    unfold truthy_field. by rewrite Hnc.
Qed.

Lemma Err_drops_hidden_code_witness :
  ∃ r e,
    Err (Exotic {[ "msg" := Property true (Some (Str "bad"));
                   "code" := Property false (Some (Str "E7")) ]}) = Normal r
    ∧ field "err" r = Some (Obj e)
    ∧ e !! "code" = None
    ∧ e !! "show" = Some (Bool false)
    ∧ e !! "msg" = Some (Str "bad")
    ∧ Zeturn.codeFromError (Obj e) = Normal (Str "zeturn_unknown").
Proof.
  destruct (Err_drops_hidden_code
              ({[ "msg" := Property true (Some (Str "bad"));
                  "code" := Property false (Some (Str "E7")) ]}
                 : gmap string (property value)) (Str "E7"))
    as (r & e & Hr & _ & He & Hc & Hs & Hk & Hz);
    [vm_compute; reflexivity..|].
  exists r, e. split; [exact Hr|]. split; [exact He|]. split; [exact Hc|].
  split; [exact Hs|]. split; [|exact Hz].
  rewrite Hk by discriminate. vm_compute; reflexivity.
Defined.

(** X18.  When [Err] fills in a default on an object that is not a plain
    record, the returned [err] keeps, besides [code] and [show], only
    the own enumerable properties of the input: an inherited or
    non-enumerable field (the [message] and [stack] of an [Error]) is
    dropped. *)
Theorem Err_keeps_own_enumerable_only slots :
  truthy_field "code" (Exotic slots) = false →
  throwing_field "code" (Exotic slots) = false →
  spread_throws slots = false →
  ∃ r e,
    Err (Exotic slots) = Normal r
    ∧ field "err" r = Some (Obj e)
    ∧ e !! "code" = Some (Str "no_error_code")
    ∧ (∀ k, k ≠ "code" → k ≠ "show" → e !! k = slots !! k ≫= copied)
    ∧ (∀ k p, k ≠ "code" → k ≠ "show" → slots !! k = Some p →
         own_enumerable p = false → e !! k = None).
Proof.
  intros Hf Ht Hsp. rewrite Err_Exotic_falsy_code by done.
  destruct (Err_record_shape (omap copied slots)) as (e & He & Hc & _ & Hk).
  exists (failure (Obj e)), e. split; [exact He|].
  split; [apply field_err_failure|].
  rewrite (truthy_field_copied _ _ Hf) in Hc. split; [exact Hc|].
  assert (∀ k, k ≠ "code" → k ≠ "show" → e !! k = slots !! k ≫= copied) as Hk'.
  { intros k H1 H2. rewrite Hk by done. apply lookup_omap. }
  split; [exact Hk'|].
  intros k p H1 H2 Hl Ho. rewrite Hk' by done. rewrite Hl. simpl.
  unfold copied. by rewrite Ho.
Qed.

Lemma Err_keeps_own_enumerable_only_witness :
  ∃ r e,
    Err (Exotic {[ "message" := Property false (Some (Str "boom"));
                   "msg" := Property true (Some (Str "bad")) ]}) = Normal r
    ∧ field "err" r = Some (Obj e)
    ∧ e !! "code" = Some (Str "no_error_code")
    ∧ e !! "msg" = Some (Str "bad")
    ∧ e !! "message" = None.
Proof.
  destruct (Err_keeps_own_enumerable_only
              ({[ "message" := Property false (Some (Str "boom"));
                  "msg" := Property true (Some (Str "bad")) ]}
                 : gmap string (property value)))
    as (r & e & Hr & He & Hc & Hk & Hd); [vm_compute; reflexivity..|].
  exists r, e. split; [exact Hr|]. split; [exact He|]. split; [exact Hc|].
  split.
  - rewrite Hk by discriminate. vm_compute; reflexivity.
  - apply (Hd "message" (Property false (Some (Str "boom"))));
      [discriminate.. | vm_compute; reflexivity | reflexivity].
Defined.

End result_properties.
